(** * feedback-intel: the enrichment workflow, the priority score and the
    sheet importer of [src/index.ts], embedded and verified.

    The worker is TypeScript on Cloudflare Workers.  Strings are modelled as
    [string] (ASCII text: [toLowerCase] folds A-Z, [trim] strips ASCII white
    space), JS numbers as binary64 ([PrimFloat]) wherever the source multiplies
    by a decimal constant or rounds, and as exact integers or rationals where
    the source only handles small integers and halves of integers, on which
    binary64 is exact.  Timestamps are epoch milliseconds ([Z]): every
    [created_at] the worker hands to a run comes out of [toISOString()].  The
    inference provider ([env.AI]), the wall clock, the digest primitive and
    the workflow engine ([step.do]) are the platform's; they appear as
    explicit parameters or as a small model, each marked where it is
    introduced. *)

From Stdlib Require Import ZArith QArith Qminmax Qround String Ascii List Bool Lia.
From Stdlib Require Import PrimFloat FloatOps SpecFloat.
From stdpp Require Import base option list strings gmap.

Set Default Proof Using "Type".
#[local] Set Warnings "-inexact-float".
#[local] Open Scope string_scope.
#[local] Open Scope Z_scope.

(** ** JavaScript strings *)

Module JS.

(** [s.toLowerCase()] on ASCII text. *)
Definition lower_ascii (c : ascii) : ascii :=
  let n := nat_of_ascii c in
  if ((65 <=? n)%nat && (n <=? 90)%nat)%bool then ascii_of_nat (n + 32) else c.

Fixpoint toLowerCase (s : string) : string :=
  match s with
  | EmptyString => EmptyString
  | String c s' => String (lower_ascii c) (toLowerCase s')
  end.

(** [s.includes(kw)]: [kw] occurs in [s] as a contiguous substring. *)
Fixpoint includes (s kw : string) : bool :=
  String.prefix kw s ||
  match s with
  | EmptyString => false
  | String _ s' => includes s' kw
  end.

(** [s.substring(0, n)]: the first [n] characters (all of [s] when it is
    shorter). *)
Definition substring0 (n : nat) (s : string) : string := String.substring 0 n s.

(** White space removed by [trim()]: TAB, LF, VT, FF, CR and SPACE. *)
Definition is_space (c : ascii) : bool :=
  let n := nat_of_ascii c in
  (((9 <=? n)%nat && (n <=? 13)%nat) || (n =? 32)%nat)%bool.

Fixpoint trimStart (s : string) : string :=
  match s with
  | String c s' => if is_space c then trimStart s' else s
  | EmptyString => EmptyString
  end.

Fixpoint trimEnd (s : string) : string :=
  match s with
  | EmptyString => EmptyString
  | String c s' =>
      match trimEnd s' with
      | EmptyString => if is_space c then EmptyString else String c EmptyString
      | t => String c t
      end
  end.

Definition trim (s : string) : string := trimEnd (trimStart s).

(** [s.split(',')]: the pieces between commas; never the empty list. *)
Fixpoint split_comma (s : string) : list string :=
  match s with
  | EmptyString => [EmptyString]
  | String c s' =>
      if Ascii.eqb c ","%char then EmptyString :: split_comma s'
      else match split_comma s' with
           | piece :: rest => String c piece :: rest
           | [] => [String c EmptyString]
           end
  end.

(** [arr.includes(x)] on an array of strings. *)
Definition array_includes (arr : list string) (x : string) : bool :=
  existsb (String.eqb x) arr.

(** [arr.some(kw => s.includes(kw))]. *)
Definition some_included (arr : list string) (s : string) : bool :=
  existsb (includes s) arr.

(** [arr.slice(0, n)]. *)
Definition slice0 {A} (n : nat) (arr : list A) : list A := firstn n arr.

(** [table[key]] on an object literal used as a table: the value of the own
    key, [None] for [undefined].  The members every object literal inherits
    (a tier spelled [constructor] or [__proto__] would reach them) are
    outside the model. *)
Fixpoint get {V} (table : list (string * V)) (key : string) : option V :=
  match table with
  | [] => None
  | (k, v) :: rest => if String.eqb k key then Some v else get rest key
  end.

(** [table[key] || dflt] on a table of numbers: [undefined] and [0] are
    both falsy. *)
Definition get_or (table : list (string * Z)) (key : string) (dflt : Z) : Z :=
  match get table key with
  | Some 0 | None => dflt
  | Some w => w
  end.

(** [Object.keys(table)], in declaration order. *)
Definition keys {V} (table : list (string * V)) : list string := map fst table.

(** The double quote, for prompts and for JSON text. *)
Definition dquote : string := String (ascii_of_nat 34) EmptyString.
Definition backslash : string := String (ascii_of_nat 92) EmptyString.
Definition newline : string := String (ascii_of_nat 10) EmptyString.

(** [JSON.stringify] of an array of strings; inside a string the double
    quote and the backslash are escaped (the tags the workflow stores hold
    neither, nor control characters). *)
Fixpoint json_escape (s : string) : string :=
  match s with
  | EmptyString => EmptyString
  | String c s' =>
      (if Ascii.eqb c (ascii_of_nat 34) then backslash ++ dquote
       else if Ascii.eqb c (ascii_of_nat 92) then backslash ++ backslash
       else String c EmptyString) ++ json_escape s'
  end.

Definition json_string (s : string) : string := dquote ++ json_escape s ++ dquote.

Definition stringify (arr : list string) : string :=
  "[" ++ String.concat "," (map json_string arr) ++ "]".

End JS.

(** ** JavaScript numbers *)

Module Num.

#[local] Open Scope float_scope.

(** An integer as a binary64 number (round to nearest, ties to even; exact
    below 2^53). *)
Definition of_Z (z : Z) : float := SF2Prim (binary_normalize prec emax z 0 false).

(** A rational as the binary64 quotient of its numerator and denominator;
    exact when the quotient is a binary64 number, as a half of a small
    integer is. *)
Definition of_Q (q : Q) : float := of_Z (Qnum q) / of_Z (Zpos (Qden q)).

(** [Math.round(x)]: the integer nearest to [x], a tie going up (towards
    +infinity).  NaN, the infinities and the zeros are returned as they are;
    a number whose exponent is not negative is an integer already. *)
Definition Math_round (x : float) : float :=
  match Prim2SF x with
  | S754_finite s m e =>
      match e with
      | Zneg n =>
          let d := Z.pow_pos 2 n in
          let q := (Zpos m / d)%Z in
          let r := (Zpos m mod d)%Z in
          if s then
            (* x = -(q + r/d) *)
            let k := (if (d <? 2 * r)%Z then q + 1 else q)%Z in
            if (k =? 0)%Z then neg_zero else - of_Z k
          else
            of_Z (if (d <=? 2 * r)%Z then q + 1 else q)%Z
      | _ => x
      end
  | _ => x
  end.

End Num.


(** ** Types and constants *)

(** [interface FeedbackPayload]; [created_at] is the epoch-millisecond value
    of the ISO-8601 text. *)
Module Payload.
Record t := mk {
  id : string;
  source : string;
  content : string;
  author : option string;
  customer_tier : string;
  created_at : Z
}.
End Payload.

(** A row of table [feedback]; a nullable column is an [option], [None] being
    SQL NULL. *)
Module Row.
Record t := mk {
  id : string;
  source : string;
  content : string;
  content_hash : string;
  author : option string;
  customer_tier : string;
  created_at : Z;
  sentiment : option string;
  sentiment_score : option float;
  urgency : option string;
  themes : option string;
  summary : option string;
  processed_at : option Z;
  priority_score : option float;
  arr_estimate : option Z
}.
End Row.

Definition TIER_ARR : list (string * Z) :=
  [("enterprise", 50000); ("pro", 5000); ("free", 0)].
Definition TIER_WEIGHT : list (string * Z) :=
  [("enterprise", 10); ("pro", 5); ("free", 1)].
Definition SEVERITY_WEIGHT : list (string * Z) :=
  [("critical", 10); ("high", 7); ("medium", 4); ("low", 1)].
Definition SENTIMENT_WEIGHT : list (string * Z) :=
  [("negative", 10); ("neutral", 5); ("positive", 1)].
Definition SHEET_SOURCES : list (string * string) :=
  [("Support", "support"); ("Discord", "discord"); ("GitHub", "github"); ("Twitter", "twitter")].

Definition highKeywords : list string :=
  ["broken"; "fail"; "error"; "blocked"; "cannot"; "stuck"; "alternative"; "leaving"].
Definition validUrgencies : list string := ["critical"; "high"; "medium"; "low"].

(** The two revisions of the worker that carry the six-step workflow,
    [src/index.ts] and the longer revision with the provider fallback for
    urgency, run the same steps and differ in the places gathered here. *)
Record Revision := {
  THEME_KEYWORDS : list (string * list string);
  criticalKeywords : list string;
  (** the prompt of extract-themes, from [content.substring(0, 300)] *)
  themes_prompt : string -> string;
  (** the prompt of classify-urgency from the tier and
      [content.substring(0, 300)]; [None] where the step ends in
      [return { urgency: 'low' }] *)
  urgency_prompt : option (string -> string -> string);
  (** the prompt of generate-summary, from [content.substring(0, 400)] *)
  summary_prompt : string -> string;
  (** [response.substring(0, summary_limit)] *)
  summary_limit : nat;
  (** [content.substring(0, summary_fallback) + '...'] *)
  summary_fallback : nat
}.

(** [src/index.ts]. *)
Definition index_ts : Revision := {|
  THEME_KEYWORDS :=
    [("documentation", ["docs"; "documentation"; "guide"; "tutorial"; "example"; "outdated"; "confusing"]);
     ("reliability", ["down"; "outage"; "error"; "fail"; "crash"; "broken"; "unstable"; "timeout"]);
     ("performance", ["slow"; "latency"; "speed"; "fast"; "performance"; "cold start"]);
     ("dx", ["developer experience"; "wrangler"; "cli"; "sdk"; "api"; "typescript"; "tooling"]);
     ("pricing", ["price"; "cost"; "billing"; "expensive"; "cheap"; "free tier"; "credits"]);
     ("features", ["feature"; "request"; "would be"; "should"; "wish"; "need"; "want"; "missing"]);
     ("support", ["support"; "help"; "response"; "ticket"; "resolved"]);
     ("security", ["security"; "auth"; "permission"; "403"; "401"; "access"; "token"])];
  criticalKeywords := ["urgent"; "down"; "outage"; "production"; "critical"; "emergency"; "asap"; "sla"];
  themes_prompt := fun text =>
    "Classify into 1-2 themes (documentation, reliability, performance, dx, pricing, features, support, security): "
    ++ JS.dquote ++ text ++ JS.dquote ++ JS.newline ++ JS.newline
    ++ "Reply with ONLY comma-separated themes.";
  urgency_prompt := None;
  summary_prompt := fun text =>
    "Summarize in max 12 words: " ++ JS.dquote ++ text ++ JS.dquote ++ JS.newline ++ JS.newline
    ++ "Reply with ONLY the summary.";
  summary_limit := 100;
  summary_fallback := 80
|}.

(** The longer revision: more keywords, [immediately] among the critical
    ones, and the provider asked for the urgency of a text without keywords. *)
Definition index_ai : Revision := {|
  THEME_KEYWORDS :=
    [("documentation", ["docs"; "documentation"; "guide"; "tutorial"; "example"; "readme"; "outdated"; "confusing"]);
     ("reliability", ["down"; "outage"; "error"; "fail"; "crash"; "broken"; "unstable"; "503"; "500"; "timeout"]);
     ("performance", ["slow"; "latency"; "speed"; "fast"; "performance"; "cold start"; "response time"; "millisecond"]);
     ("dx", ["developer experience"; "wrangler"; "cli"; "sdk"; "api"; "typescript"; "tooling"; "debug"]);
     ("pricing", ["price"; "cost"; "billing"; "expensive"; "cheap"; "free tier"; "credits"; "charge"]);
     ("features", ["feature"; "request"; "would be"; "should"; "wish"; "need"; "want"; "missing"]);
     ("support", ["support"; "help"; "response"; "ticket"; "customer service"; "resolved"]);
     ("security", ["security"; "auth"; "permission"; "403"; "401"; "access"; "credential"; "token"])];
  criticalKeywords :=
    ["urgent"; "down"; "outage"; "production"; "critical"; "emergency"; "asap"; "immediately"; "sla"];
  themes_prompt := fun text =>
    "Classify this feedback into 1-2 themes. Valid themes: documentation, reliability, performance, dx, pricing, features, support, security."
    ++ JS.newline ++ "              " ++ JS.newline
    ++ "Feedback: " ++ JS.dquote ++ text ++ JS.dquote ++ JS.newline ++ JS.newline
    ++ "Reply with ONLY comma-separated themes, nothing else. Example: reliability, performance";
  urgency_prompt := Some (fun tier text =>
    "Rate urgency as: critical, high, medium, or low." ++ JS.newline
    ++ "Customer tier: " ++ tier ++ JS.newline
    ++ "Feedback: " ++ JS.dquote ++ text ++ JS.dquote ++ JS.newline ++ JS.newline
    ++ "Reply with ONLY one word: critical, high, medium, or low");
  summary_prompt := fun text =>
    "Summarize in max 15 words: " ++ JS.dquote ++ text ++ JS.dquote ++ JS.newline
    ++ "            " ++ JS.newline
    ++ "Reply with ONLY the summary, no quotes.";
  summary_limit := 120;
  summary_fallback := 100
|}.

(** ** The inference provider *)

(** What [env.AI.run] can answer.  A classifier answers with one
    label-and-score object or with an array of them; [label] is [None] when
    the field is missing and [score] is NaN when it is.  [SentThrows] is a
    rejected call, or an answer on which [result.label] throws. *)
Record classification := { label : option string; score : float }.

Inductive sentiment_reply :=
| SentThrows
| SentArray (results : list classification)
| SentObject (result : classification).

(** A chat model answers with an object whose [response] field is a text
    ([ChatText]), is missing or another falsy value ([ChatNoText]), or is a
    truthy value that is no string ([ChatOther]); [ChatThrows] is a rejected
    call (or a reply that is no object at all). *)
Inductive chat_reply :=
| ChatThrows
| ChatNoText
| ChatText (response : string)
| ChatOther.

Definition distilbert : string := "@cf/huggingface/distilbert-sst-2-int8".
Definition llama : string := "@cf/meta/llama-3.1-8b-instruct".

(** [env.AI]: the provider, as the function from a request to its answer
    (one function per model the worker calls). *)
Record Ai := {
  classify : string -> sentiment_reply;
  chat : string -> chat_reply
}.

(** The wall clock, as calculate-priority ([Date.now()]) and store-results
    ([new Date()]) read it when their callbacks execute. *)
Record Clock := {
  now_at_priority : Z;
  now_at_store : Z
}.

(** [x || dflt] on a string that may be [undefined]: the empty string is
    falsy too. *)
Definition or_text (x : option string) (dflt : string) : string :=
  match x with
  | Some s => if String.eqb s "" then dflt else s
  | None => dflt
  end.

(** ** The steps of [MyWorkflow.run], as functions of the provider's answer *)

Module Steps.

Record sentiment_result := { sentiment : string; sentiment_score : float }.
Record themes_result := { themes : list string }.
Record urgency_result := { urgency : string }.

(** analyze-sentiment, after [await this.env.AI.run(...)]: an empty array
    leaves [result] undefined and [result.label] throws into the [catch]. *)
Definition sentiment_of_reply (response : sentiment_reply) : sentiment_result :=
  let caught := {| sentiment := "neutral"; sentiment_score := 0%float |} in
  let result :=
    match response with
    | SentThrows => None
    | SentArray results => head results
    | SentObject result => Some result
    end in
  match result with
  | None => caught
  | Some result =>
      let label := JS.toLowerCase (or_text (label result) "NEUTRAL") in
      let score :=
        if String.eqb label "positive" then score result else (- score result)%float in
      {| sentiment :=
           if String.eqb label "positive" then "positive"
           else if String.eqb label "negative" then "negative" else "neutral";
         sentiment_score := (Num.Math_round (score * 100) / 100)%float |}
  end.

(** extract-themes, the keyword loop over [Object.entries(THEME_KEYWORDS)]. *)
Definition detected_themes (rev : Revision) (contentLower : string) : list string :=
  map fst (List.filter (fun entry => JS.some_included (snd entry) contentLower) (THEME_KEYWORDS rev)).

(** [text.toLowerCase().split(',').map(t => t.trim()).filter(t =>
    Object.keys(THEME_KEYWORDS).includes(t))]. *)
Definition aiThemes (rev : Revision) (text : string) : list string :=
  List.filter (fun t => JS.array_includes (JS.keys (THEME_KEYWORDS rev)) t)
    (map JS.trim (JS.split_comma (JS.toLowerCase text))).

(** [(response.response || dflt)] as the receiver of [.toLowerCase()]:
    [None] when the [try] block throws before a text is at hand (the call is
    rejected, or the value is truthy and no string). *)
Definition reply_text (response : chat_reply) (dflt : string) : option string :=
  match response with
  | ChatThrows | ChatOther => None
  | ChatNoText => Some dflt
  | ChatText text => Some (or_text (Some text) dflt)
  end.

(** extract-themes, the [try] block once no keyword matched. *)
Definition themes_of_reply (rev : Revision) (response : chat_reply) : themes_result :=
  match reply_text response "" with
  | None => {| themes := ["general"] |}
  | Some text =>
      let tags := aiThemes rev text in
      {| themes := if (0 <? length tags)%nat then tags else ["general"] |}
  end.

(** classify-urgency, the [try] block of the provider fallback. *)
Definition urgency_of_reply (response : chat_reply) : urgency_result :=
  match reply_text response "medium" with
  | None => {| urgency := "medium" |}
  | Some text =>
      let result := JS.trim (JS.toLowerCase text) in
      {| urgency := if JS.array_includes validUrgencies result then result else "medium" |}
  end.

(** generate-summary: [response.substring(0, limit).trim()], and the
    truncated content with an ellipsis from the [catch]. *)
Definition summary_of_reply (rev : Revision) (content : string) (response : chat_reply) : string :=
  match response with
  | ChatText text => JS.trim (JS.substring0 (summary_limit rev) text)
  | _ => JS.substring0 (summary_fallback rev) content ++ "..."
  end.

(** calculate-priority.  [daysOld] is an integer (the floor of a quotient of
    integers, at least 1) and [ageW] a half of an integer, at most 5: both
    are exact in binary64 and kept exact here; the four products by the
    decimal weights, their sum and the rounding are binary64.  [Math.floor]
    of the binary64 quotient by 86400000 is the integer quotient as long as
    it is below 2^27 days; a difference of two dates can exceed that only
    far above the ten days at which [ageW] is capped. *)
Definition daysOld (now created_at : Z) : Z :=
  Z.max 1 ((now - created_at) / (1000 * 60 * 60 * 24)).

Definition ageW (daysOld : Z) : Q := Qmin (inject_Z daysOld * 0.5) 5.

(** [(ageW * 0.1)], the age term of the score. *)
Definition age_term (ageW : Q) : float := (Num.of_Q ageW * 0.1)%float.

Definition priority_score (tierW sevW sentW : Z) (ageW : Q) : float :=
  let score :=
    ((Num.of_Z tierW * 0.4) + (Num.of_Z sevW * 0.3) + (Num.of_Z sentW * 0.2)
     + age_term ageW)%float in
  (Num.Math_round (score * 10) / 10)%float.

Definition priority (now : Z) (feedback : Payload.t) (urgency sentiment : string) : float :=
  let tierW := JS.get_or TIER_WEIGHT (JS.toLowerCase (Payload.customer_tier feedback)) 1 in
  let sevW := JS.get_or SEVERITY_WEIGHT urgency 4 in
  let sentW := JS.get_or SENTIMENT_WEIGHT sentiment 5 in
  priority_score tierW sevW sentW (ageW (daysOld now (Payload.created_at feedback))).

End Steps.

(** ** The table [feedback] *)

Module DB.

(** [UPDATE feedback SET sentiment=?, sentiment_score=?, urgency=?, themes=?,
    summary=?, priority_score=?, arr_estimate=?, processed_at=? WHERE id=?]. *)
Definition set_results (sentiment : string) (sentiment_score : float) (urgency themes summary : string)
    (priority_score : float) (arr_estimate : Z) (processed_at : Z) (r : Row.t) : Row.t :=
  {| Row.id := Row.id r;
     Row.source := Row.source r;
     Row.content := Row.content r;
     Row.content_hash := Row.content_hash r;
     Row.author := Row.author r;
     Row.customer_tier := Row.customer_tier r;
     Row.created_at := Row.created_at r;
     Row.sentiment := Some sentiment;
     Row.sentiment_score := Some sentiment_score;
     Row.urgency := Some urgency;
     Row.themes := Some themes;
     Row.summary := Some summary;
     Row.processed_at := Some processed_at;
     Row.priority_score := Some priority_score;
     Row.arr_estimate := Some arr_estimate |}.

Definition update_results (sentiment : string) (sentiment_score : float) (urgency themes summary : string)
    (priority_score : float) (arr_estimate : Z) (processed_at : Z) (id : string)
    (table : list Row.t) : list Row.t :=
  map (fun r =>
         if String.eqb (Row.id r) id
         then set_results sentiment sentiment_score urgency themes summary
                priority_score arr_estimate processed_at r
         else r) table.

(** [SELECT id FROM feedback WHERE content_hash=?], [.first()]. *)
Definition first_by_hash (contentHash : string) (table : list Row.t) : option string :=
  Row.id <$> find (fun r => String.eqb (Row.content_hash r) contentHash) table.

(** The row of [INSERT INTO feedback (id, source, content, content_hash,
    author, customer_tier, arr_estimate, created_at)]: the other columns are
    NULL. *)
Definition new_row (id source content content_hash author customer_tier : string)
    (arr_estimate : Z) (created_at : Z) : Row.t :=
  {| Row.id := id; Row.source := source; Row.content := content;
     Row.content_hash := content_hash; Row.author := Some author;
     Row.customer_tier := customer_tier; Row.created_at := created_at;
     Row.sentiment := None; Row.sentiment_score := None; Row.urgency := None;
     Row.themes := None; Row.summary := None; Row.processed_at := None;
     Row.priority_score := None; Row.arr_estimate := Some arr_estimate |}.

(** The insert fails ([None]) on the primary key [id] and on the unique
    index [idx_content_hash]. *)
Definition insert (r : Row.t) (table : list Row.t) : option (list Row.t) :=
  if existsb (fun r' => String.eqb (Row.id r') (Row.id r)
                        || String.eqb (Row.content_hash r') (Row.content_hash r)) table
  then None
  else Some (table ++ [r])%list.


End DB.

(** ** The workflow engine *)

Module Engine.

(** Modelled from the spec: the engine behind [step.do] belongs to the
    platform ([cloudflare:workers]), not to the repository.  As the design
    notes of the specification put it, it keeps a persisted map from step
    identifier to completed result, commits each step's result before the
    next step starts, and on resume skips every step already in the map.
    [budget] is the number of step callbacks the host lets complete before
    it interrupts the execution (a crash or an eviction between two steps). *)
Inductive checkpoint :=
| CSentiment (r : Steps.sentiment_result)
| CThemes (r : Steps.themes_result)
| CUrgency (r : Steps.urgency_result)
| CText (s : string)
| CNumber (x : float)
| CVoid.

Class Checkpointed (A : Type) := {
  save : A -> checkpoint;
  restore : checkpoint -> option A
}.

#[export] Instance sentiment_checkpointed : Checkpointed Steps.sentiment_result :=
  {| save := CSentiment; restore c := match c with CSentiment r => Some r | _ => None end |}.
#[export] Instance themes_checkpointed : Checkpointed Steps.themes_result :=
  {| save := CThemes; restore c := match c with CThemes r => Some r | _ => None end |}.
#[export] Instance urgency_checkpointed : Checkpointed Steps.urgency_result :=
  {| save := CUrgency; restore c := match c with CUrgency r => Some r | _ => None end |}.
#[export] Instance text_checkpointed : Checkpointed string :=
  {| save := CText; restore c := match c with CText s => Some s | _ => None end |}.
#[export] Instance number_checkpointed : Checkpointed float :=
  {| save := CNumber; restore c := match c with CNumber x => Some x | _ => None end |}.
#[export] Instance void_checkpointed : Checkpointed unit :=
  {| save _ := CVoid; restore c := match c with CVoid => Some tt | _ => None end |}.

(** What a step callback can touch: the provider (every call is logged with
    its model and input) and the table. *)
Record World := {
  calls : list (string * string);
  table : list Row.t
}.

Record state := {
  checkpoints : gmap string checkpoint;
  budget : nat;
  world : World
}.

(** [Failed]: a checkpoint of another step's shape under this step's name;
    no run of the workflow writes one. *)
Inductive outcome (A : Type) :=
| Completed (a : A)
| Interrupted
| Failed.
Arguments Completed {A} a.
Arguments Interrupted {A}.
Arguments Failed {A}.

Definition M (A : Type) : Type := state -> outcome A * state.

#[export] Instance M_ret : MRet M := fun A a st => (Completed a, st).
#[export] Instance M_bind : MBind M := fun A B f m st =>
  match m st with
  | (Completed a, st') => f a st'
  | (Interrupted, st') => (Interrupted, st')
  | (Failed, st') => (Failed, st')
  end.

(** Modelled from the spec: [await step.do(name, callback)].  A step whose
    result is in the map returns it without running the callback; another
    step runs the callback, if the host lets it, and commits the result
    under its name before the next step starts.  A callback of this
    workflow does not throw (the provider calls sit in [try] blocks), and
    the write of store-results is taken to succeed. *)
Definition step_do {A} `{Checkpointed A} (name : string) (callback : World -> A * World) : M A :=
  fun st =>
    match checkpoints st !! name with
    | Some c =>
        match restore c with
        | Some a => (Completed a, st)
        | None => (Failed, st)
        end
    | None =>
        match budget st with
        | O => (Interrupted, st)
        | S n =>
            let (a, w) := callback (world st) in
            (Completed a,
             {| checkpoints := <[name := save a]> (checkpoints st); budget := n; world := w |})
        end
    end.

(** A fresh instance on a table, and the same instance picked up again by
    the host with a new budget. *)
Definition start (budget : nat) (table : list Row.t) : state :=
  {| checkpoints := ∅; budget := budget; world := {| calls := []; table := table |} |}.

Definition resume (budget : nat) (st : state) : state :=
  {| checkpoints := checkpoints st; budget := budget; world := world st |}.

Definition log (model input : string) (w : World) : World :=
  {| calls := (calls w ++ [(model, input)])%list; table := table w |}.

(** How many calls to a model the log holds. *)
Definition calls_to (model : string) (w : World) : nat :=
  length (List.filter (fun call => String.eqb (fst call) model) (calls w)).

End Engine.

(** ** [class MyWorkflow] *)

Module MyWorkflow.
Import Engine.

Record result := {
  id : string;
  sentiment : Steps.sentiment_result;
  themes : Steps.themes_result;
  urgency : Steps.urgency_result;
  summary : string;
  priorityScore : float
}.

Section Run.
Variable rev : Revision.
Variable AI : Ai.
Variable clock : Clock.
Variable feedback : Payload.t.

Definition analyze_sentiment (w : World) : Steps.sentiment_result * World :=
  let text := JS.substring0 512 (Payload.content feedback) in
  (Steps.sentiment_of_reply (classify AI text), log distilbert text w).

Definition extract_themes (w : World) : Steps.themes_result * World :=
  let contentLower := JS.toLowerCase (Payload.content feedback) in
  let detected := Steps.detected_themes rev contentLower in
  if (length detected =? 0)%nat then
    let prompt := themes_prompt rev (JS.substring0 300 (Payload.content feedback)) in
    (Steps.themes_of_reply rev (chat AI prompt), log llama prompt w)
  else ({| Steps.themes := JS.slice0 3 detected |}, w).

Definition classify_urgency (w : World) : Steps.urgency_result * World :=
  let contentLower := JS.toLowerCase (Payload.content feedback) in
  let tier := JS.toLowerCase (Payload.customer_tier feedback) in
  let hasCritical := JS.some_included (criticalKeywords rev) contentLower in
  let hasHigh := JS.some_included highKeywords contentLower in
  if String.eqb tier "enterprise" && (hasCritical || hasHigh) then
    ({| Steps.urgency := "critical" |}, w)
  else if hasCritical then
    ({| Steps.urgency := if String.eqb tier "enterprise" then "critical" else "high" |}, w)
  else if hasHigh then
    ({| Steps.urgency := if String.eqb tier "enterprise" then "high" else "medium" |}, w)
  else
    match urgency_prompt rev with
    | None => ({| Steps.urgency := "low" |}, w)
    | Some ask =>
        let prompt := ask tier (JS.substring0 300 (Payload.content feedback)) in
        (Steps.urgency_of_reply (chat AI prompt), log llama prompt w)
    end.

Definition generate_summary (w : World) : string * World :=
  let prompt := summary_prompt rev (JS.substring0 400 (Payload.content feedback)) in
  (Steps.summary_of_reply rev (Payload.content feedback) (chat AI prompt), log llama prompt w).

Definition calculate_priority (urgency : Steps.urgency_result) (sentiment : Steps.sentiment_result)
    (w : World) : float * World :=
  (Steps.priority (now_at_priority clock) feedback (Steps.urgency urgency) (Steps.sentiment sentiment), w).

Definition store_results (sentiment : Steps.sentiment_result) (themes : Steps.themes_result)
    (urgency : Steps.urgency_result) (summaryResult : string) (priorityScore : float)
    (w : World) : unit * World :=
  (tt,
   {| calls := calls w;
      table :=
        DB.update_results (Steps.sentiment sentiment) (Steps.sentiment_score sentiment)
          (Steps.urgency urgency) (JS.stringify (Steps.themes themes)) summaryResult priorityScore
          (JS.get_or TIER_ARR (JS.toLowerCase (Payload.customer_tier feedback)) 0)
          (now_at_store clock) (Payload.id feedback) (table w) |}).

Definition run : M result :=
  sentiment ← step_do "analyze-sentiment" analyze_sentiment;
  themes ← step_do "extract-themes" extract_themes;
  urgency ← step_do "classify-urgency" classify_urgency;
  summaryResult ← step_do "generate-summary" generate_summary;
  priorityScore ← step_do "calculate-priority" (calculate_priority urgency sentiment);
  _ ← step_do "store-results" (store_results sentiment themes urgency summaryResult priorityScore);
  mret {| id := Payload.id feedback; sentiment := sentiment; themes := themes;
          urgency := urgency; summary := summaryResult; priorityScore := priorityScore |}.

End Run.

End MyWorkflow.

(** ** The sheet importer *)

Module Importer.

(** The platform under the importer.  [SHA256] is
    [crypto.subtle.digest('SHA-256', new TextEncoder().encode(content))] as
    the list of the 32 bytes of the digest, [fetchSheetData] the sheet grid
    ([None] when the request fails), [randomUUID n] the [n]-th identifier
    the generator hands out, [parse_date] the reading of [new Date(text)]
    ([None] for an invalid date, on which [toISOString()] throws) and [now]
    the clock. *)
Record Platform := {
  SHA256 : string -> list N;
  fetchSheetData : string -> option (list (list string));
  randomUUID : nat -> string;
  parse_date : string -> option Z;
  now : Z
}.

(** What the importer changes: the table, the queue of workflow instances
    ([MY_WORKFLOW.create]) and how many identifiers were drawn. *)
Record state := {
  table : list Row.t;
  queue : list Payload.t;
  drawn : nat
}.

Definition hex_digit (n : N) : string :=
  String.substring (N.to_nat n) 1 "0123456789abcdef".

(** [b.toString(16).padStart(2, '0')]. *)
Definition hex_byte (b : N) : string := hex_digit (b / 16) ++ hex_digit (b mod 16).

Section WithPlatform.
Variable env : Platform.

Definition hashContent (content : string) : string :=
  JS.substring0 32 (String.concat "" (map hex_byte (SHA256 env content))).

Inductive row_outcome :=
| Skipped
| Imported
| Thrown.

(** The body of [for (const row of rows.slice(1))]. *)
Definition import_row (sourceName : string) (row : list string) (st : state) : row_outcome * state :=
  if (length row <? 3)%nat || String.eqb (JS.trim (nth 0 row "")) "" then (Skipped, st)
  else
    let content := nth 0 row "" in
    let author := nth 1 row "" in
    let customer_tier := nth 2 row "" in
    let timestamp := nth_error row 3 in
    let contentHash := hashContent content in
    match DB.first_by_hash contentHash (table st) with
    | Some _ => (Skipped, st)
    | None =>
        let id := randomUUID env (drawn st) in
        let st := {| table := table st; queue := queue st; drawn := S (drawn st) |} in
        let normalizedTier := JS.trim (JS.toLowerCase (or_text (Some customer_tier) "free")) in
        let created_at :=
          match timestamp with
          | Some text => if String.eqb text "" then Some (now env) else parse_date env text
          | None => Some (now env)
          end in
        match created_at with
        | None => (Thrown, st)
        | Some created_at =>
            let r :=
              DB.new_row id sourceName (JS.trim content) contentHash (or_text (Some author) "anonymous")
                normalizedTier (JS.get_or TIER_ARR normalizedTier 0) created_at in
            match DB.insert r (table st) with
            | None => (Thrown, st)
            | Some table' =>
                (Imported,
                 {| table := table';
                    queue :=
                      (queue st ++
                       [Payload.mk id sourceName (JS.trim content) None normalizedTier created_at])%list;
                    drawn := drawn st |})
            end
        end
    end.

(** The loop over the rows of one sheet: whether a row threw (the [catch]
    of the sheet then takes over), and the rows imported until then. *)
Fixpoint import_rows (sourceName : string) (rows : list (list string)) (sheetImported : nat)
    (st : state) : bool * nat * state :=
  match rows with
  | [] => (false, sheetImported, st)
  | row :: rows =>
      match import_row sourceName row st with
      | (Skipped, st) => import_rows sourceName rows sheetImported st
      | (Imported, st) => import_rows sourceName rows (S sheetImported) st
      | (Thrown, st) => (true, sheetImported, st)
      end
  end.

(** One turn of the loop over [SHEET_SOURCES]: what [results[sourceName]]
    reports, what [totalImported] grew by, and the state.  The rows imported
    before a throw stay imported and stay counted in [totalImported], while
    the [catch] reports 0 for the sheet. *)
Definition import_sheet (sheetName sourceName : string) (st : state) : nat * nat * state :=
  match fetchSheetData env sheetName with
  | None => (0%nat, 0%nat, st)
  | Some rows =>
      let '(thrown, sheetImported, st') := import_rows sourceName (skipn 1 rows) 0 st in
      (if thrown : bool then 0%nat else sheetImported, sheetImported, st')
  end.

(** [importFromSheets]: the per-source counts, the total and the state. *)
Fixpoint import_sources (sources : list (string * string)) (results : list (string * nat))
    (totalImported : nat) (st : state) : list (string * nat) * nat * state :=
  match sources with
  | [] => (results, totalImported, st)
  | (sheetName, sourceName) :: sources =>
      let '(reported, added, st') := import_sheet sheetName sourceName st in
      import_sources sources (results ++ [(sourceName, reported)])%list (totalImported + added)%nat st'
  end.

Definition importFromSheets (st : state) : list (string * nat) * nat * state :=
  import_sources SHEET_SOURCES [] 0%nat st.

End WithPlatform.

End Importer.

(** ** The priority score in the words of the specification *)

Module Spec.

Inductive tier := enterprise | pro | free.
Inductive severity := critical | high | medium | low.
Inductive mood := negative | neutral | positive.

Definition tier_name (t : tier) : string :=
  match t with enterprise => "enterprise" | pro => "pro" | free => "free" end.
Definition severity_name (u : severity) : string :=
  match u with critical => "critical" | high => "high" | medium => "medium" | low => "low" end.
Definition mood_name (s : mood) : string :=
  match s with negative => "negative" | neutral => "neutral" | positive => "positive" end.

Definition tier_weight (t : tier) : Z :=
  match t with enterprise => 10 | pro => 5 | free => 1 end.
Definition severity_weight (u : severity) : Z :=
  match u with critical => 10 | high => 7 | medium => 4 | low => 1 end.
Definition sentiment_weight (s : mood) : Z :=
  match s with negative => 10 | neutral => 5 | positive => 1 end.

(** tierWeight x 0.4 + severityWeight x 0.3 + sentimentWeight x 0.2 +
    min(daysOld x 0.5, 5) x 0.1, as a sum of decimal fractions. *)
Definition score (t : tier) (u : severity) (s : mood) (daysOld : Z) : Q :=
  (inject_Z (tier_weight t) * 0.4 + inject_Z (severity_weight u) * 0.3
   + inject_Z (sentiment_weight s) * 0.2 + Qmin (inject_Z daysOld * 0.5) 5 * 0.1)%Q.

(** The number of tenths of [x] rounded to one decimal place, a tie going
    up (9.05 to 9.1). *)
Definition tenths (x : Q) : Z := Qfloor (x * 10 + (1 # 2))%Q.

Definition round1 (x : Q) : Q := (tenths x # 10)%Q.

(** The score the specification promises: the decimal [round1 (score ...)],
    as the binary64 number nearest to it. *)
Definition priority (t : tier) (u : severity) (s : mood) (daysOld : Z) : float :=
  Num.of_Q (round1 (score t u s daysOld)).

(** The inputs on which the binary64 sum of the source falls just below a
    tie that the decimal sum hits: there the source returns the lower tenth. *)
Definition below_tie (t : tier) (u : severity) (s : mood) (daysOld : Z) : Z :=
  match t, u, s, Z.min daysOld 10 with
  | enterprise, high, negative, 9
  | enterprise, low, neutral, 7
  | pro, high, negative, 1
  | pro, high, neutral, 1
  | pro, high, neutral, 7
  | pro, high, positive, 7
  | pro, low, negative, 7
  | free, low, positive, 3
  | free, low, positive, 9 => 1
  | _, _, _, _ => 0
  end.

(** A payload of tier [t] created at [created_at]. *)
Definition item (t : tier) (created_at : Z) : Payload.t :=
  Payload.mk "" "" "" None (tier_name t) created_at.

End Spec.

(** ** Properties of rows and tables *)

Module Table.



(** The base columns of two rows agree. *)
Definition same_base (r r' : Row.t) : Prop :=
  Row.id r' = Row.id r /\ Row.source r' = Row.source r /\ Row.content r' = Row.content r
  /\ Row.content_hash r' = Row.content_hash r /\ Row.author r' = Row.author r
  /\ Row.customer_tier r' = Row.customer_tier r /\ Row.created_at r' = Row.created_at r.

(** What a write keyed by [id] may do to a row: keep the base columns, and
    keep the whole row when its id is another. *)
Definition framed (id : string) (r r' : Row.t) : Prop :=
  same_base r r' /\ (Row.id r <> id -> r' = r).

(** The row without the two columns computed from the clock. *)
Definition timeless (r : Row.t) : Row.t :=
  {| Row.id := Row.id r; Row.source := Row.source r; Row.content := Row.content r;
     Row.content_hash := Row.content_hash r; Row.author := Row.author r;
     Row.customer_tier := Row.customer_tier r; Row.created_at := Row.created_at r;
     Row.sentiment := Row.sentiment r; Row.sentiment_score := Row.sentiment_score r;
     Row.urgency := Row.urgency r; Row.themes := Row.themes r; Row.summary := Row.summary r;
     Row.processed_at := None; Row.priority_score := None;
     Row.arr_estimate := Row.arr_estimate r |}.

(** The number of stored records with a fingerprint. *)
Definition records_with (contentHash : string) (table : list Row.t) : nat :=
  length (List.filter (fun r => String.eqb (Row.content_hash r) contentHash) table).


End Table.

(** ** Sample inputs *)

Module Sample.

(** A provider that rejects every call. *)
Definition silent : Ai :=
  {| classify := fun _ => SentThrows; chat := fun _ => ChatThrows |}.

(** A provider with fixed answers. *)
Definition steady : Ai :=
  {| classify := fun _ => SentArray [{| label := Some "NEGATIVE"; score := 0.98%float |}];
     chat := fun _ => ChatText "Checkout page is slow" |}.

(** A provider that names four themes. *)
Definition talkative : Ai :=
  {| classify := fun _ => SentThrows;
     chat := fun _ => ChatText "documentation, reliability, performance, dx" |}.

(** A provider whose answer names no theme. *)
Definition clueless : Ai :=
  {| classify := fun _ => SentThrows; chat := fun _ => ChatText "No idea, sorry" |}.

Definition payload (content customer_tier : string) : Payload.t :=
  Payload.mk "f-1" "manual" content None customer_tier 0.

Definition nothing : Engine.World := {| Engine.calls := []; Engine.table := [] |}.

(** A platform for the importer: the sheet [Support] holds a header and
    the same row twice, the other sheets cannot be fetched; the stand-in for
    the digest lists the character codes of the text. *)
Definition sheet_row : list string := ["Checkout is slow"; "Ana"; "Pro"].

Definition platform : Importer.Platform :=
  {| Importer.SHA256 := fun text => map (fun c => N.of_nat (nat_of_ascii c)) (list_ascii_of_string text);
     Importer.fetchSheetData := fun sheetName =>
       if String.eqb sheetName "Support"
       then Some [["content"; "author"; "tier"]; sheet_row; sheet_row]
       else None;
     Importer.randomUUID := fun n => String (ascii_of_nat (97 + n)) "";
     Importer.parse_date := fun _ => None;
     Importer.now := 1000 |}.

Definition empty_import : Importer.state :=
  {| Importer.table := []; Importer.queue := []; Importer.drawn := 0 |}.

(** The row the submit handler stores for [payload content customer_tier]. *)
Definition stored (content customer_tier : string) : Row.t :=
  DB.new_row "f-1" "manual" content "0f" "anonymous" customer_tier 0 0.


End Sample.

(** * Theorems *)

(** ** calculate-priority *)

Lemma daysOld_ge_1 now created_at : 1 <= Steps.daysOld now created_at.
Proof. unfold Steps.daysOld. lia. Qed.

Lemma daysOld_ge_10 now created_at :
  10 * (1000 * 60 * 60 * 24) <= now - created_at -> 10 <= Steps.daysOld now created_at.
Proof.
  intros H. unfold Steps.daysOld.
  assert (10 <= (now - created_at) / (1000 * 60 * 60 * 24)).
  { apply Z.div_le_lower_bound; lia. }
  lia.
Qed.

Lemma age_cap_above d : 10 < d -> Qmin (inject_Z d * 0.5) 5 = 5%Q.
Proof.
  intros Hd. unfold Qmin, GenericMinMax.gmin.
  replace (inject_Z d * 0.5 ?= 5)%Q with Gt; [reflexivity|].
  symmetry. unfold Qcompare. cbn. apply Z.compare_gt_iff. lia.
Qed.

Lemma small_days d : 1 <= d <= 10 ->
  d = 1 \/ d = 2 \/ d = 3 \/ d = 4 \/ d = 5 \/ d = 6 \/ d = 7 \/ d = 8 \/ d = 9 \/ d = 10.
Proof. lia. Qed.

(** Two binary64 numbers with different decompositions are different. *)
Lemma float_neq (x y : float) : Prim2SF x <> Prim2SF y -> x <> y.
Proof. intros H ->. exact (H eq_refl). Qed.

Lemma ageW_le_5 d : (Steps.ageW d <= 5)%Q.
Proof. unfold Steps.ageW. apply Q.le_min_r. Qed.

Lemma age_term_capped d : 10 <= d -> Steps.age_term (Steps.ageW d) = 0.5%float.
Proof.
  intros Hd. unfold Steps.ageW.
  destruct (Z.eq_dec d 10) as [->|Hne]; [vm_compute; reflexivity|].
  rewrite age_cap_above by lia. vm_compute. reflexivity.
Qed.

(** C2 (amended).  For every tier, urgency, sentiment label and pair of
    clock reading and creation time, calculate-priority returns
    [Math.round(score * 10) / 10] for the binary64 sum [score = tierWeight *
    0.4 + severityWeight * 0.3 + sentimentWeight * 0.2 + min(daysOld * 0.5,
    5) * 0.1] with [daysOld = max(1, whole days since creation)]: that is the
    decimal sum rounded to one decimal place with ties up, except on the nine
    inputs of [Spec.below_tie], where it is one tenth lower.  Enterprise,
    critical, negative at one day yields 9.1, and the score is a function of
    these inputs alone. *)
Theorem calculate_priority_formula (clock : Clock) (t : Spec.tier) (u : Spec.severity) (s : Spec.mood)
    (created_at : Z) (x : float) (w : Engine.World) :
  let daysOld := Steps.daysOld (now_at_priority clock) created_at in
  MyWorkflow.calculate_priority clock (Spec.item t created_at)
    {| Steps.urgency := Spec.severity_name u |}
    {| Steps.sentiment := Spec.mood_name s; Steps.sentiment_score := x |} w
  = ((Num.of_Z (Spec.tenths (Spec.score t u s daysOld) - Spec.below_tie t u s daysOld) / 10)%float, w)
  /\ daysOld = Z.max 1 ((now_at_priority clock - created_at) / 86400000)
  /\ Steps.priority 86400000 (Spec.item Spec.enterprise 0) "critical" "negative" = 9.1%float.
Proof.
  cbv zeta. split; [|split; [reflexivity | vm_compute; reflexivity]].
  unfold MyWorkflow.calculate_priority. f_equal.
  cbn [Steps.urgency Steps.sentiment].
  pose proof (daysOld_ge_1 (now_at_priority clock) created_at) as Hge.
  unfold Steps.priority, Steps.priority_score, Steps.age_term, Steps.ageW, Spec.score.
  cbn [Payload.created_at Payload.customer_tier Spec.item].
  generalize dependent (Steps.daysOld (now_at_priority clock) created_at). intros d Hge.
  destruct (Z_lt_le_dec 10 d) as [Hbig|Hsmall].
  - rewrite (age_cap_above d Hbig).
    assert (Hmin : Spec.below_tie t u s d = Spec.below_tie t u s 10).
    { unfold Spec.below_tie. rewrite (Z.min_r d 10) by lia. reflexivity. }
    rewrite Hmin. destruct t, u, s; vm_compute; reflexivity.
  - destruct (small_days d) as [->|[->|[->|[->|[->|[->|[->|[->|[->| ->]]]]]]]]]; [lia|..];
      destruct t, u, s; vm_compute; reflexivity.
Qed.

(** C2 as stated fails twice: for a pro customer, high urgency, negative
    sentiment and one day of age the decimal sum is 6.15, which rounds to
    6.2, while the step returns 6.1; and for an item less than a day old
    (age 0) the formula gives 9.0 for enterprise, critical, negative while
    the step, which counts at least one day, returns 9.1. *)
Lemma calculate_priority_not_decimal :
  (Steps.priority 86400000 (Spec.item Spec.pro 0) "high" "negative" = 6.1%float
   /\ Spec.priority Spec.pro Spec.high Spec.negative (86400000 / 86400000) = 6.2%float
   /\ Steps.priority 86400000 (Spec.item Spec.pro 0) "high" "negative"
      <> Spec.priority Spec.pro Spec.high Spec.negative (86400000 / 86400000))
  /\ (Steps.priority 0 (Spec.item Spec.enterprise 0) "critical" "negative" = 9.1%float
      /\ Spec.priority Spec.enterprise Spec.critical Spec.negative (0 / 86400000) = 9%float
      /\ Steps.priority 0 (Spec.item Spec.enterprise 0) "critical" "negative"
         <> Spec.priority Spec.enterprise Spec.critical Spec.negative (0 / 86400000)).
Proof.
  repeat split; try (vm_compute; reflexivity); apply float_neq; vm_compute; discriminate.
Qed.

(** C9.  The age weight never exceeds 5, and two items that are both at
    least ten days old get the same age term (0.5) in their scores. *)
Theorem age_weight_capped (now1 created1 now2 created2 : Z) :
  (Steps.ageW (Steps.daysOld now1 created1) <= 5)%Q
  /\ (10 * 86400000 <= now1 - created1 ->
      10 * 86400000 <= now2 - created2 ->
      (Steps.ageW (Steps.daysOld now1 created1) == Steps.ageW (Steps.daysOld now2 created2))%Q
      /\ Steps.age_term (Steps.ageW (Steps.daysOld now1 created1))
         = Steps.age_term (Steps.ageW (Steps.daysOld now2 created2))).
Proof.
  split; [apply ageW_le_5|].
  intros H1 H2.
  apply daysOld_ge_10 in H1. apply daysOld_ge_10 in H2.
  split.
  - unfold Steps.ageW. rewrite !Q.min_r; [reflexivity| |].
    + unfold Qle; cbn; lia.
    + unfold Qle; cbn; lia.
  - rewrite !age_term_capped by assumption. reflexivity.
Qed.

Lemma age_weight_capped_witness :
  (Steps.ageW (Steps.daysOld (100 * 86400000) 0) <= 5)%Q
  /\ (Steps.ageW (Steps.daysOld (100 * 86400000) 0) == Steps.ageW (Steps.daysOld (10 * 86400000) 0))%Q
  /\ Steps.age_term (Steps.ageW (Steps.daysOld (100 * 86400000) 0))
     = Steps.age_term (Steps.ageW (Steps.daysOld (10 * 86400000) 0)).
Proof.
  pose proof (age_weight_capped (100 * 86400000) 0 (10 * 86400000) 0) as [Hle Heq].
  split; [exact Hle|]. apply Heq; lia.
Defined.

(** ** classify-urgency *)

(** C4 (amended).  For a text with a high keyword and no critical keyword,
    classify-urgency returns [critical] when the tier is enterprise and
    [medium] for every other tier, and touches nothing. *)
Theorem urgency_high_keyword (rev : Revision) (AI : Ai) (feedback : Payload.t) (w : Engine.World) :
  JS.some_included highKeywords (JS.toLowerCase (Payload.content feedback)) = true ->
  JS.some_included (criticalKeywords rev) (JS.toLowerCase (Payload.content feedback)) = false ->
  MyWorkflow.classify_urgency rev AI feedback w
  = ({| Steps.urgency :=
          if String.eqb (JS.toLowerCase (Payload.customer_tier feedback)) "enterprise"
          then "critical" else "medium" |}, w).
Proof.
  intros Hhigh Hcrit. unfold MyWorkflow.classify_urgency.
  rewrite Hhigh, Hcrit.
  destruct (String.eqb (JS.toLowerCase (Payload.customer_tier feedback)) "enterprise");
    reflexivity.
Qed.

Lemma urgency_high_keyword_witness :
  MyWorkflow.classify_urgency index_ts Sample.silent (Sample.payload "Login is broken" "Pro")
    Sample.nothing
  = ({| Steps.urgency := "medium" |}, Sample.nothing)
  /\ MyWorkflow.classify_urgency index_ai Sample.silent
       (Sample.payload "Login is broken" "Enterprise") Sample.nothing
     = ({| Steps.urgency := "critical" |}, Sample.nothing).
Proof.
  split.
  - apply (urgency_high_keyword index_ts Sample.silent (Sample.payload "Login is broken" "Pro"));
      reflexivity.
  - apply (urgency_high_keyword index_ai Sample.silent
             (Sample.payload "Login is broken" "Enterprise")); reflexivity.
Defined.

(** C4 as stated fails: "Login is broken" holds the high keyword [broken]
    and no critical keyword, and for an enterprise customer the step answers
    [critical], not [high]. *)
Lemma urgency_high_keyword_enterprise :
  JS.some_included highKeywords (JS.toLowerCase "Login is broken") = true
  /\ JS.some_included (criticalKeywords index_ts) (JS.toLowerCase "Login is broken") = false
  /\ fst (MyWorkflow.classify_urgency index_ts Sample.silent
            (Sample.payload "Login is broken" "enterprise") Sample.nothing)
     = {| Steps.urgency := "critical" |}
  /\ Steps.urgency (fst (MyWorkflow.classify_urgency index_ts Sample.silent
                           (Sample.payload "Login is broken" "enterprise") Sample.nothing))
     <> "high".
Proof. repeat split; try reflexivity. vm_compute. discriminate. Qed.

Lemma array_includes_In (arr : list string) (x : string) :
  JS.array_includes arr x = true <-> In x arr.
Proof.
  unfold JS.array_includes. rewrite existsb_exists. split.
  - intros (y & Hy & Heq). apply String.eqb_eq in Heq. subst. exact Hy.
  - intros Hin. exists x. split; [exact Hin | apply String.eqb_refl].
Qed.

(** What the provider fallback of classify-urgency answers is one of the
    four levels. *)
Lemma urgency_of_reply_valid (response : chat_reply) :
  In (Steps.urgency (Steps.urgency_of_reply response)) validUrgencies.
Proof.
  unfold Steps.urgency_of_reply.
  destruct (Steps.reply_text response "medium") as [text|]; cbn [Steps.urgency].
  - destruct (JS.array_includes validUrgencies (JS.trim (JS.toLowerCase text))) eqn:E.
    + apply array_includes_In. exact E.
    + cbn. tauto.
  - cbn. tauto.
Qed.

(** C7 (amended).  For a text with neither a critical nor a high keyword:
    the revision with a provider fallback asks the chat model once, with the
    prompt that lists the four levels, and returns its answer (trimmed, in
    lower case) when that is one of the four levels and [medium] when the
    call fails or the answer is anything else; [src/index.ts] has no
    fallback and returns [low] without calling the provider. *)
Theorem urgency_without_keyword (rev : Revision) (AI : Ai) (feedback : Payload.t)
    (w : Engine.World) :
  JS.some_included (criticalKeywords rev) (JS.toLowerCase (Payload.content feedback)) = false ->
  JS.some_included highKeywords (JS.toLowerCase (Payload.content feedback)) = false ->
  match urgency_prompt rev with
  | Some ask =>
      let prompt :=
        ask (JS.toLowerCase (Payload.customer_tier feedback))
          (JS.substring0 300 (Payload.content feedback)) in
      MyWorkflow.classify_urgency rev AI feedback w
      = (Steps.urgency_of_reply (chat AI prompt), Engine.log llama prompt w)
      /\ In (Steps.urgency (fst (MyWorkflow.classify_urgency rev AI feedback w))) validUrgencies
      /\ (forall text,
             Steps.reply_text (chat AI prompt) "medium" = Some text ->
             In (JS.trim (JS.toLowerCase text)) validUrgencies ->
             fst (MyWorkflow.classify_urgency rev AI feedback w)
             = {| Steps.urgency := JS.trim (JS.toLowerCase text) |})
      /\ (match Steps.reply_text (chat AI prompt) "medium" with
          | Some text => JS.array_includes validUrgencies (JS.trim (JS.toLowerCase text)) = false
          | None => True
          end ->
          fst (MyWorkflow.classify_urgency rev AI feedback w) = {| Steps.urgency := "medium" |})
  | None => MyWorkflow.classify_urgency rev AI feedback w = ({| Steps.urgency := "low" |}, w)
  end
  /\ urgency_prompt index_ts = None
  /\ is_Some (urgency_prompt index_ai).
Proof.
  intros Hcrit Hhigh. split; [|split; [reflexivity | eexists; reflexivity]].
  assert (Hrun : MyWorkflow.classify_urgency rev AI feedback w
                 = match urgency_prompt rev with
                   | None => ({| Steps.urgency := "low" |}, w)
                   | Some ask =>
                       let prompt :=
                         ask (JS.toLowerCase (Payload.customer_tier feedback))
                           (JS.substring0 300 (Payload.content feedback)) in
                       (Steps.urgency_of_reply (chat AI prompt), Engine.log llama prompt w)
                   end).
  { unfold MyWorkflow.classify_urgency. rewrite Hcrit, Hhigh.
    rewrite andb_false_r. reflexivity. }
  rewrite Hrun. destruct (urgency_prompt rev) as [ask|]; [|reflexivity].
  cbv zeta. cbn [fst]. split; [reflexivity|]. split; [apply urgency_of_reply_valid|].
  split.
  - intros text Htext Hvalid. unfold Steps.urgency_of_reply. rewrite Htext.
    apply array_includes_In in Hvalid. rewrite Hvalid. reflexivity.
  - intros Hbad. unfold Steps.urgency_of_reply.
    destruct (Steps.reply_text _ "medium") as [text|]; [|reflexivity].
    rewrite Hbad. reflexivity.
Qed.

Lemma urgency_without_keyword_witness :
  MyWorkflow.classify_urgency index_ai Sample.talkative (Sample.payload "Hello there" "pro")
    Sample.nothing
  = ({| Steps.urgency := "medium" |},
     Engine.log llama
       (match urgency_prompt index_ai with
        | Some ask => ask "pro" "Hello there"
        | None => ""
        end) Sample.nothing)
  /\ MyWorkflow.classify_urgency index_ts Sample.talkative (Sample.payload "Hello there" "pro")
       Sample.nothing
     = ({| Steps.urgency := "low" |}, Sample.nothing).
Proof.
  split.
  - exact (proj1 (proj1 (urgency_without_keyword index_ai Sample.talkative
                           (Sample.payload "Hello there" "pro") Sample.nothing eq_refl eq_refl))).
  - exact (proj1 (urgency_without_keyword index_ts Sample.talkative
                    (Sample.payload "Hello there" "pro") Sample.nothing eq_refl eq_refl)).
Defined.

(** C7 as stated fails on [src/index.ts]: "Hello there" holds no keyword,
    and the step answers [low] without a provider call, where the claim has
    a provider fallback that ends in [medium] when the call fails. *)
Lemma urgency_without_keyword_low :
  JS.some_included (criticalKeywords index_ts) (JS.toLowerCase "Hello there") = false
  /\ JS.some_included highKeywords (JS.toLowerCase "Hello there") = false
  /\ chat Sample.silent = (fun _ => ChatThrows)
  /\ MyWorkflow.classify_urgency index_ts Sample.silent (Sample.payload "Hello there" "pro")
       Sample.nothing
     = ({| Steps.urgency := "low" |}, Sample.nothing)
  /\ Engine.calls (snd (MyWorkflow.classify_urgency index_ts Sample.silent
                          (Sample.payload "Hello there" "pro") Sample.nothing)) = []
  /\ Steps.urgency (fst (MyWorkflow.classify_urgency index_ts Sample.silent
                           (Sample.payload "Hello there" "pro") Sample.nothing))
     <> "medium".
Proof. repeat split; try reflexivity. vm_compute. discriminate. Qed.

(** ** extract-themes *)



Lemma themes_of_reply_nonempty (rev : Revision) (response : chat_reply) :
  Steps.themes (Steps.themes_of_reply rev response) <> [].
Proof.
  unfold Steps.themes_of_reply.
  destruct (Steps.reply_text response "") as [text|]; cbn [Steps.themes]; [|discriminate].
  destruct (Steps.aiThemes rev text); cbn; discriminate.
Qed.

Lemma extract_themes_cases (rev : Revision) (AI : Ai) (feedback : Payload.t) (w : Engine.World) :
  let detected := Steps.detected_themes rev (JS.toLowerCase (Payload.content feedback)) in
  let prompt := themes_prompt rev (JS.substring0 300 (Payload.content feedback)) in
  (detected = []
   /\ MyWorkflow.extract_themes rev AI feedback w
      = (Steps.themes_of_reply rev (chat AI prompt), Engine.log llama prompt w))
  \/ (detected <> []
      /\ MyWorkflow.extract_themes rev AI feedback w
         = ({| Steps.themes := firstn 3 detected |}, w)).
Proof.
  cbv zeta. unfold MyWorkflow.extract_themes.
  destruct (Steps.detected_themes rev (JS.toLowerCase (Payload.content feedback))) as [|t l];
    [left | right]; split; try reflexivity. discriminate.
Qed.

Lemma extract_themes_nonempty (rev : Revision) (AI : Ai) (feedback : Payload.t)
    (w : Engine.World) :
  Steps.themes (fst (MyWorkflow.extract_themes rev AI feedback w)) <> [].
Proof.
  destruct (extract_themes_cases rev AI feedback w) as [[_ Hrun]|[Hsome Hrun]];
    rewrite Hrun; cbn [fst Steps.themes].
  - apply themes_of_reply_nonempty.
  - destruct (Steps.detected_themes rev (JS.toLowerCase (Payload.content feedback)));
      [contradiction | discriminate].
Qed.

(** The text of the provider's reply holds no tag of the taxonomy, or there
    is no text because the call failed. *)
Lemma themes_of_reply_general (rev : Revision) (response : chat_reply) :
  match Steps.reply_text response "" with
  | Some text => Steps.aiThemes rev text = []
  | None => True
  end ->
  Steps.themes_of_reply rev response = {| Steps.themes := ["general"] |}.
Proof.
  unfold Steps.themes_of_reply.
  destruct (Steps.reply_text response "") as [text|]; [|reflexivity].
  intros ->. reflexivity.
Qed.

(** C6.  When no theme keyword matches the text and the provider call fails
    or its filtered answer holds no tag of the taxonomy, extract-themes
    returns exactly [general]; and whatever the text and the provider, the
    list it returns is not empty. *)
Theorem themes_fallback (rev : Revision) (AI : Ai) (feedback : Payload.t) (w : Engine.World) :
  (Steps.detected_themes rev (JS.toLowerCase (Payload.content feedback)) = [] ->
   match Steps.reply_text
           (chat AI (themes_prompt rev (JS.substring0 300 (Payload.content feedback)))) "" with
   | Some text => Steps.aiThemes rev text = []
   | None => True
   end ->
   Steps.themes (fst (MyWorkflow.extract_themes rev AI feedback w)) = ["general"])
  /\ Steps.themes (fst (MyWorkflow.extract_themes rev AI feedback w)) <> [].
Proof.
  split; [|apply extract_themes_nonempty].
  intros Hnone Hbad.
  destruct (extract_themes_cases rev AI feedback w) as [[_ Hrun]|[Hsome _]];
    [|contradiction].
  rewrite Hrun. cbn [fst]. rewrite themes_of_reply_general by exact Hbad. reflexivity.
Qed.

Lemma themes_fallback_witness :
  Steps.themes (fst (MyWorkflow.extract_themes index_ts Sample.silent
                       (Sample.payload "Hello there" "pro") Sample.nothing)) = ["general"]
  /\ Steps.themes (fst (MyWorkflow.extract_themes index_ai
                          Sample.clueless
                          (Sample.payload "Hello there" "pro") Sample.nothing)) = ["general"].
Proof.
  split.
  - apply (proj1 (themes_fallback index_ts Sample.silent (Sample.payload "Hello there" "pro")
                    Sample.nothing)); [reflexivity | exact I].
  - apply (proj1 (themes_fallback index_ai _ (Sample.payload "Hello there" "pro")
                    Sample.nothing)); reflexivity.
Defined.




(** ** The table under a run of the workflow *)

Section TableRelation.
Import Engine.

(** A relation between the table before and after, closed under doing
    nothing and under doing one thing after another. *)
Variable T : list Row.t -> list Row.t -> Prop.
Hypothesis T_refl : forall t, T t t.
Hypothesis T_trans : forall t1 t2 t3, T t1 t2 -> T t2 t3 -> T t1 t3.

Lemma step_do_relates {A} `{Checkpointed A} (name : string) (callback : World -> A * World) :
  (forall w, T (table w) (table (snd (callback w)))) ->
  forall st, T (table (world st)) (table (world (snd (step_do name callback st)))).
Proof using T_refl.
  intros Hcb st. unfold step_do.
  destruct (checkpoints st !! name) as [c|].
  - destruct (restore c); apply T_refl.
  - destruct (budget st); [apply T_refl|].
    specialize (Hcb (world st)). destruct (callback (world st)) as [a w]. exact Hcb.
Qed.

Lemma bind_relates {A B} (m : M A) (f : A -> M B) :
  (forall st, T (table (world st)) (table (world (snd (m st))))) ->
  (forall a st, T (table (world st)) (table (world (snd (f a st))))) ->
  forall st, T (table (world st)) (table (world (snd ((m ≫= f) st)))).
Proof using T_trans.
  intros Hm Hf st. unfold mbind, M_bind.
  specialize (Hm st). destruct (m st) as [[a| |] st']; cbn [snd] in *; try exact Hm.
  eapply T_trans; [exact Hm | apply Hf].
Qed.

(** The only step of [run] that writes the table is store-results, with
    one [UPDATE] keyed by the payload's id. *)
Lemma run_relates (rev : Revision) (AI : Ai) (clock : Clock) (feedback : Payload.t) :
  (forall sentiment sentiment_score urgency themes summary priority_score processed_at t,
      T t (DB.update_results sentiment sentiment_score urgency themes summary priority_score
             (JS.get_or TIER_ARR (JS.toLowerCase (Payload.customer_tier feedback)) 0)
             processed_at (Payload.id feedback) t)) ->
  forall st, T (table (world st)) (table (world (snd (MyWorkflow.run rev AI clock feedback st)))).
Proof using T_refl T_trans.
  intros Hupdate. unfold MyWorkflow.run.
  apply bind_relates; [apply step_do_relates; intros w; apply T_refl | intros sentiment].
  apply bind_relates; [apply step_do_relates; intros w | intros themes].
  { unfold MyWorkflow.extract_themes.
    destruct (length _ =? 0)%nat; apply T_refl. }
  apply bind_relates; [apply step_do_relates; intros w | intros urgency].
  { unfold MyWorkflow.classify_urgency.
    repeat match goal with
           | |- context [if ?b then _ else _] => destruct b
           | |- context [match urgency_prompt rev with _ => _ end] => destruct (urgency_prompt rev)
           end; apply T_refl. }
  apply bind_relates; [apply step_do_relates; intros w; apply T_refl | intros summaryResult].
  apply bind_relates; [apply step_do_relates; intros w; apply T_refl | intros priorityScore].
  apply bind_relates; [apply step_do_relates; intros w; apply Hupdate | intros []].
  intros st. apply T_refl.
Qed.

End TableRelation.

Lemma same_base_refl (r : Row.t) : Table.same_base r r.
Proof. repeat split. Qed.

Lemma framed_refl (id : string) (r : Row.t) : Table.framed id r r.
Proof. split; [apply same_base_refl | reflexivity]. Qed.

Lemma framed_trans (id : string) (r1 r2 r3 : Row.t) :
  Table.framed id r1 r2 -> Table.framed id r2 r3 -> Table.framed id r1 r3.
Proof.
  intros [Hb12 Hk12] [Hb23 Hk23]. split.
  - unfold Table.same_base in *. intuition congruence.
  - intros Hne. specialize (Hk12 Hne). subst r2. apply Hk23. exact Hne.
Qed.

Lemma update_results_framed sentiment sentiment_score urgency themes summary priority_score
    arr_estimate processed_at (id : string) (t : list Row.t) :
  Forall2 (Table.framed id) t
    (DB.update_results sentiment sentiment_score urgency themes summary priority_score
       arr_estimate processed_at id t).
Proof.
  unfold DB.update_results. induction t as [|r t IH]; cbn [map]; constructor; [|exact IH].
  destruct (String.eqb (Row.id r) id) eqn:E.
  - split; [repeat split|]. intros Hne. apply String.eqb_eq in E. contradiction.
  - apply framed_refl.
Qed.

Lemma update_results_twice sentiment sentiment_score urgency themes summary priority_score
    arr_estimate processed_at sentiment' sentiment_score' urgency' themes' summary' priority_score'
    arr_estimate' processed_at' (id : string) (t : list Row.t) :
  DB.update_results sentiment' sentiment_score' urgency' themes' summary' priority_score'
    arr_estimate' processed_at' id
    (DB.update_results sentiment sentiment_score urgency themes summary priority_score
       arr_estimate processed_at id t)
  = DB.update_results sentiment' sentiment_score' urgency' themes' summary' priority_score'
      arr_estimate' processed_at' id t.
Proof.
  unfold DB.update_results. rewrite map_map. apply map_ext. intros r.
  destruct (String.eqb (Row.id r) id) eqn:E; [|rewrite E; reflexivity].
  cbn [DB.set_results Row.id]. rewrite E. reflexivity.
Qed.

(** C10.  A run of the workflow, picked up in any engine state, leaves the
    table with the same rows in the same places; every row keeps its base
    columns (id, source, content, content_hash, author, customer_tier,
    created_at), every row whose id is not the payload's is unchanged, and
    the table after the run is the table before it or its [UPDATE ... WHERE
    id = payload.id]. *)
Theorem store_results_frame (rev : Revision) (AI : Ai) (clock : Clock) (feedback : Payload.t)
    (st : Engine.state) :
  let before := Engine.table (Engine.world st) in
  let after := Engine.table (Engine.world (snd (MyWorkflow.run rev AI clock feedback st))) in
  Forall2 (Table.framed (Payload.id feedback)) before after
  /\ (after = before
      \/ exists sentiment sentiment_score urgency themes summary priority_score processed_at,
           after = DB.update_results sentiment sentiment_score urgency themes summary priority_score
                     (JS.get_or TIER_ARR (JS.toLowerCase (Payload.customer_tier feedback)) 0)
                     processed_at (Payload.id feedback) before).
Proof.
  cbv zeta. split.
  - apply (run_relates (Forall2 (Table.framed (Payload.id feedback)))).
    + intros t. apply Forall_Forall2_diag, List.Forall_forall. intros r _. apply framed_refl.
    + intros t1 t2 t3 H12 H23. revert t3 H23.
      induction H12 as [|r1 r2 t1 t2 Hr H12 IH]; intros t3 H23; inversion H23; subst;
        constructor; eauto using framed_trans.
    + intros. apply update_results_framed.
  - apply (run_relates (fun t t' =>
      t' = t
      \/ exists sentiment sentiment_score urgency themes summary priority_score processed_at,
           t' = DB.update_results sentiment sentiment_score urgency themes summary priority_score
                  (JS.get_or TIER_ARR (JS.toLowerCase (Payload.customer_tier feedback)) 0)
                  processed_at (Payload.id feedback) t)).
    + intros t. left. reflexivity.
    + intros t1 t2 t3 [->|H12] [->|H23]; auto.
      destruct H12 as (a1 & a2 & a3 & a4 & a5 & a6 & a7 & ->).
      destruct H23 as (b1 & b2 & b3 & b4 & b5 & b6 & b7 & ->).
      right. exists b1, b2, b3, b4, b5, b6, b7. apply update_results_twice.
    + intros a1 a2 a3 a4 a5 a6 a7 t. right. exists a1, a2, a3, a4, a5, a6, a7. reflexivity.
Qed.

(** ** Processed rows *)





(** ** Interrupted and resumed runs *)

Section Stepping.
Import Engine.

Lemma bind_step_fresh {A B} `{Checkpointed A} (name : string) (callback : World -> A * World)
    (f : A -> M B) (cps : gmap string checkpoint) (n : nat) (w : World) :
  cps !! name = None ->
  (step_do name callback ≫= f) {| checkpoints := cps; budget := S n; world := w |}
  = f (fst (callback w))
      {| checkpoints := <[name := save (fst (callback w))]> cps; budget := n;
         world := snd (callback w) |}.
Proof.
  intros Hnone. unfold mbind, M_bind, step_do. cbn [checkpoints budget world].
  rewrite Hnone. destruct (callback w) as [a w']. reflexivity.
Qed.

Lemma bind_step_halt {A B} `{Checkpointed A} (name : string) (callback : World -> A * World)
    (f : A -> M B) (cps : gmap string checkpoint) (w : World) :
  cps !! name = None ->
  (step_do name callback ≫= f) {| checkpoints := cps; budget := 0; world := w |}
  = (Interrupted, {| checkpoints := cps; budget := 0; world := w |}).
Proof.
  intros Hnone. unfold mbind, M_bind, step_do. cbn [checkpoints budget world].
  rewrite Hnone. reflexivity.
Qed.

Lemma bind_step_replay {A B} `{Checkpointed A} (name : string) (callback : World -> A * World)
    (f : A -> M B) (st : state) (a : A) :
  checkpoints st !! name = Some (save a) -> restore (save a) = Some a ->
  (step_do name callback ≫= f) st = f a st.
Proof.
  intros Hsome Hrestore. unfold mbind, M_bind, step_do.
  rewrite Hsome, Hrestore. reflexivity.
Qed.

End Stepping.

(** The checkpoint map of a symbolic run is a stack of inserts under the
    six step names. *)
Ltac not_saved :=
  cbn [Engine.checkpoints];
  repeat (rewrite lookup_insert_ne by discriminate);
  lazymatch goal with |- ∅ !! _ = None => apply lookup_empty end.

Ltac is_saved :=
  cbn [Engine.checkpoints];
  repeat (rewrite lookup_insert_ne by discriminate);
  lazymatch goal with |- <[_:=_]> _ !! _ = Some _ => apply lookup_insert_eq end.

Section Calls.
Import Engine.

Lemma calls_to_log (model model' input : string) (w : World) :
  calls_to model (log model' input w)
  = (calls_to model w + (if String.eqb model' model then 1 else 0))%nat.
Proof.
  unfold calls_to, log. cbn [calls]. rewrite List.filter_app, length_app. cbn.
  destruct (String.eqb model' model); reflexivity.
Qed.

Lemma analyze_sentiment_calls (AI : Ai) (feedback : Payload.t) (w : World) :
  calls_to distilbert (snd (MyWorkflow.analyze_sentiment AI feedback w))
  = S (calls_to distilbert w).
Proof. unfold MyWorkflow.analyze_sentiment. cbn [snd]. rewrite calls_to_log. cbn. lia. Qed.

Lemma extract_themes_calls (rev : Revision) (AI : Ai) (feedback : Payload.t) (w : World) :
  calls_to distilbert (snd (MyWorkflow.extract_themes rev AI feedback w)) = calls_to distilbert w.
Proof.
  unfold MyWorkflow.extract_themes. destruct (length _ =? 0)%nat; cbn [snd]; [|reflexivity].
  rewrite calls_to_log. cbn. lia.
Qed.

Lemma classify_urgency_calls (rev : Revision) (AI : Ai) (feedback : Payload.t) (w : World) :
  calls_to distilbert (snd (MyWorkflow.classify_urgency rev AI feedback w)) = calls_to distilbert w.
Proof.
  unfold MyWorkflow.classify_urgency.
  repeat match goal with
         | |- context [if ?b then _ else _] => destruct b
         | |- context [match urgency_prompt rev with _ => _ end] => destruct (urgency_prompt rev)
         end; cbn [snd]; try reflexivity.
  rewrite calls_to_log. cbn. lia.
Qed.

Lemma generate_summary_calls (rev : Revision) (AI : Ai) (feedback : Payload.t) (w : World) :
  calls_to distilbert (snd (MyWorkflow.generate_summary rev AI feedback w)) = calls_to distilbert w.
Proof. unfold MyWorkflow.generate_summary. cbn [snd]. rewrite calls_to_log. cbn. lia. Qed.

Lemma calculate_priority_world (clock : Clock) (feedback : Payload.t) urgency sentiment (w : World) :
  snd (MyWorkflow.calculate_priority clock feedback urgency sentiment w) = w.
Proof. reflexivity. Qed.

Lemma store_results_calls (clock : Clock) (feedback : Payload.t) sentiment themes urgency
    summaryResult priorityScore (w : World) :
  calls_to distilbert
    (snd (MyWorkflow.store_results clock feedback sentiment themes urgency summaryResult
            priorityScore w))
  = calls_to distilbert w.
Proof. reflexivity. Qed.

End Calls.

(** An execution interrupted after [S k] steps (all six when [S k] is
    more) and resumed under another clock ends like the uninterrupted
    execution that reads, in calculate-priority and in store-results, the
    clock of whichever execution ran the step; the classifier is called once
    before the interruption and never after it. *)
Lemma resume_sees_clocks (rev : Revision) (AI : Ai) (p1 s1 p2 s2 : Z) (feedback : Payload.t)
    (t : list Row.t) (k n : nat) :
  let first := {| now_at_priority := p1; now_at_store := s1 |} in
  let second := {| now_at_priority := p2; now_at_store := s2 |} in
  let seen := {| now_at_priority := if (k <? 4)%nat then p2 else p1;
                 now_at_store := if (k <? 5)%nat then s2 else s1 |} in
  let interrupted := MyWorkflow.run rev AI first feedback (Engine.start (S k) t) in
  let resumed := MyWorkflow.run rev AI second feedback (Engine.resume (6 + n) (snd interrupted)) in
  let straight := MyWorkflow.run rev AI seen feedback (Engine.start (6 + n) t) in
  fst resumed = fst straight
  /\ Engine.world (snd resumed) = Engine.world (snd straight)
  /\ Engine.calls_to distilbert (Engine.world (snd interrupted)) = 1%nat
  /\ Engine.calls_to distilbert (Engine.world (snd resumed)) = 1%nat.
Proof.
  cbv zeta.
  destruct k as [|[|[|[|[|k]]]]]; cbn [Nat.ltb Nat.leb].
  all: repeat match goal with
       | |- context [MyWorkflow.run ?r ?ai ?c ?fb ?st] =>
           lazymatch st with context [MyWorkflow.run] => fail | _ => idtac end;
           let H := fresh "Hrun" in
           eassert (H : MyWorkflow.run r ai c fb st = _)
             by (unfold MyWorkflow.run, Engine.start, Engine.resume;
                 cbn [fst snd Engine.checkpoints Engine.world Engine.budget Nat.add];
                 repeat (erewrite bind_step_replay by (first [is_saved | reflexivity]));
                 repeat (rewrite bind_step_fresh by not_saved);
                 try (rewrite bind_step_halt by not_saved);
                 unfold mret, Engine.M_ret; reflexivity);
           rewrite H; clear H
       end.
  all: cbn [fst snd Engine.world].
  all: split; [reflexivity | split; [reflexivity|]].
  all: split;
    repeat first
      [ rewrite store_results_calls
      | rewrite calculate_priority_world
      | rewrite generate_summary_calls
      | rewrite classify_urgency_calls
      | rewrite extract_themes_calls
      | rewrite analyze_sentiment_calls ];
    reflexivity.
Qed.

Lemma update_results_timeless sentiment sentiment_score urgency themes summary priority_score
    priority_score' arr_estimate processed_at processed_at' (id : string) (t : list Row.t) :
  map Table.timeless
    (DB.update_results sentiment sentiment_score urgency themes summary priority_score
       arr_estimate processed_at id t)
  = map Table.timeless
      (DB.update_results sentiment sentiment_score urgency themes summary priority_score'
         arr_estimate processed_at' id t).
Proof.
  unfold DB.update_results. rewrite !map_map. apply map_ext. intros r.
  destruct (String.eqb (Row.id r) id); reflexivity.
Qed.

(** Two uninterrupted executions under different clocks make the same
    provider calls and store the same row but for [priority_score] and
    [processed_at]. *)
Lemma straight_runs_timeless (rev : Revision) (AI : Ai) (clock clock' : Clock)
    (feedback : Payload.t) (t : list Row.t) (n : nat) :
  let straight := MyWorkflow.run rev AI clock feedback (Engine.start (6 + n) t) in
  let straight' := MyWorkflow.run rev AI clock' feedback (Engine.start (6 + n) t) in
  Engine.calls (Engine.world (snd straight')) = Engine.calls (Engine.world (snd straight))
  /\ map Table.timeless (Engine.table (Engine.world (snd straight')))
     = map Table.timeless (Engine.table (Engine.world (snd straight))).
Proof.
  cbv zeta.
  repeat match goal with
       | |- context [MyWorkflow.run ?r ?ai ?c ?fb ?st] =>
           lazymatch st with context [MyWorkflow.run] => fail | _ => idtac end;
           let H := fresh "Hrun" in
           eassert (H : MyWorkflow.run r ai c fb st = _)
             by (unfold MyWorkflow.run, Engine.start, Engine.resume;
                 cbn [fst snd Engine.checkpoints Engine.world Engine.budget Nat.add];
                 repeat (erewrite bind_step_replay by (first [is_saved | reflexivity]));
                 repeat (rewrite bind_step_fresh by not_saved);
                 try (rewrite bind_step_halt by not_saved);
                 unfold mret, Engine.M_ret; reflexivity);
           rewrite H; clear H
       end.
  cbn [fst snd Engine.world Engine.calls Engine.table MyWorkflow.store_results
       MyWorkflow.calculate_priority].
  split; [reflexivity | apply update_results_timeless].
Qed.

(** C1 (amended).  For every payload, provider, table and number [S k] of
    steps completed before the interruption: the classifier is called once
    before the interruption and not again on resume; resumed under the same
    clock readings, the run returns the same result and leaves the same
    table and the same provider calls as the uninterrupted run; resumed
    when the clock reads otherwise, it still makes the same provider calls
    and stores the same row except for [priority_score] and [processed_at],
    which are those of the uninterrupted run that reads, in
    calculate-priority and in store-results, the clock of whichever
    execution ran the step. *)
Theorem resume_after_interrupt (rev : Revision) (AI : Ai) (clock later : Clock)
    (feedback : Payload.t) (t : list Row.t) (k n : nat) :
  let interrupted := MyWorkflow.run rev AI clock feedback (Engine.start (S k) t) in
  let straight := MyWorkflow.run rev AI clock feedback (Engine.start (6 + n) t) in
  let resumed := MyWorkflow.run rev AI clock feedback (Engine.resume (6 + n) (snd interrupted)) in
  let resumed_later :=
    MyWorkflow.run rev AI later feedback (Engine.resume (6 + n) (snd interrupted)) in
  let seen :=
    {| now_at_priority := if (k <? 4)%nat then now_at_priority later else now_at_priority clock;
       now_at_store := if (k <? 5)%nat then now_at_store later else now_at_store clock |} in
  Engine.calls_to distilbert (Engine.world (snd interrupted)) = 1%nat
  /\ Engine.calls_to distilbert (Engine.world (snd resumed_later)) = 1%nat
  /\ fst resumed = fst straight
  /\ Engine.world (snd resumed) = Engine.world (snd straight)
  /\ Engine.calls (Engine.world (snd resumed_later)) = Engine.calls (Engine.world (snd straight))
  /\ map Table.timeless (Engine.table (Engine.world (snd resumed_later)))
     = map Table.timeless (Engine.table (Engine.world (snd straight)))
  /\ Engine.world (snd resumed_later)
     = Engine.world (snd (MyWorkflow.run rev AI seen feedback (Engine.start (6 + n) t))).
Proof.
  cbv zeta. destruct clock as [p1 s1], later as [p2 s2].
  cbn [now_at_priority now_at_store].
  pose proof (resume_sees_clocks rev AI p1 s1 p2 s2 feedback t k n) as (_ & Hworld & Hfirst & Hlater).
  pose proof (resume_sees_clocks rev AI p1 s1 p1 s1 feedback t k n) as (Hfst & Hsame & _ & _).
  cbv zeta in *.
  replace (if (k <? 4)%nat then p1 else p1) with p1 in * by (destruct (k <? 4)%nat; reflexivity).
  replace (if (k <? 5)%nat then s1 else s1) with s1 in * by (destruct (k <? 5)%nat; reflexivity).
  repeat split; try assumption.
  - rewrite Hworld. apply straight_runs_timeless.
  - rewrite Hworld. apply straight_runs_timeless.
Qed.

(** C1 as stated fails: with the same provider answers, a run interrupted
    after analyze-sentiment and resumed when the clock reads 2000 stores
    [processed_at = 2000], while the uninterrupted run at clock 1000 stores
    [processed_at = 1000]: the stored records differ. *)
Lemma resumed_record_differs :
  let feedback := Sample.payload "Checkout is slow" "pro" in
  let t := [Sample.stored "Checkout is slow" "pro"] in
  let clock := {| now_at_priority := 1000; now_at_store := 1000 |} in
  let later := {| now_at_priority := 2000; now_at_store := 2000 |} in
  let interrupted := MyWorkflow.run index_ts Sample.steady clock feedback (Engine.start 1 t) in
  let resumed := MyWorkflow.run index_ts Sample.steady later feedback
                   (Engine.resume 6 (snd interrupted)) in
  let straight := MyWorkflow.run index_ts Sample.steady clock feedback (Engine.start 6 t) in
  fst interrupted = Engine.Interrupted
  /\ map Row.processed_at (Engine.table (Engine.world (snd resumed))) = [Some 2000]
  /\ map Row.processed_at (Engine.table (Engine.world (snd straight))) = [Some 1000]
  /\ Engine.table (Engine.world (snd resumed)) <> Engine.table (Engine.world (snd straight)).
Proof.
  cbv zeta.
  assert (Hr : map Row.processed_at
                 (Engine.table (Engine.world (snd
                    (MyWorkflow.run index_ts Sample.steady
                       {| now_at_priority := 2000; now_at_store := 2000 |}
                       (Sample.payload "Checkout is slow" "pro")
                       (Engine.resume 6 (snd
                          (MyWorkflow.run index_ts Sample.steady
                             {| now_at_priority := 1000; now_at_store := 1000 |}
                             (Sample.payload "Checkout is slow" "pro")
                             (Engine.start 1 [Sample.stored "Checkout is slow" "pro"])))))))) = [Some 2000])
    by (vm_compute; reflexivity).
  assert (Hs : map Row.processed_at
                 (Engine.table (Engine.world (snd
                    (MyWorkflow.run index_ts Sample.steady
                       {| now_at_priority := 1000; now_at_store := 1000 |}
                       (Sample.payload "Checkout is slow" "pro")
                       (Engine.start 6 [Sample.stored "Checkout is slow" "pro"]))))) = [Some 1000])
    by (vm_compute; reflexivity).
  split; [vm_compute; reflexivity|]. split; [exact Hr|]. split; [exact Hs|].
  intros Heq. rewrite Heq in Hr. rewrite Hr in Hs. discriminate.
Qed.

(** ** Completed runs *)



Section Completed.
Import Engine.





End Completed.




(** ** The importer and the fingerprint *)

Section Dedup.
Import Importer.
Variable env : Platform.

Lemma first_by_hash_none (h : string) (t : list Row.t) :
  DB.first_by_hash h t = None <-> Table.records_with h t = 0%nat.
Proof.
  unfold DB.first_by_hash, Table.records_with. induction t as [|r t IH]; cbn [find List.filter].
  - split; reflexivity.
  - destruct (String.eqb (Row.content_hash r) h); cbn; [split; discriminate | exact IH].
Qed.

Lemma records_with_app (h : string) (t t' : list Row.t) :
  Table.records_with h (t ++ t') = (Table.records_with h t + Table.records_with h t')%nat.
Proof. unfold Table.records_with. rewrite List.filter_app, length_app. reflexivity. Qed.

(** What an imported row changes: one record with its fingerprint, which
    no stored record had, is appended. *)
Lemma import_row_imported (sourceName : string) (row : list string) (st st1 : state) :
  import_row env sourceName row st = (Imported, st1) ->
  DB.first_by_hash (hashContent env (nth 0 row "")) (table st) = None
  /\ ((length row <? 3)%nat || String.eqb (JS.trim (nth 0 row "")) "") = false
  /\ exists r, Row.content_hash r = hashContent env (nth 0 row "")
               /\ table st1 = (table st ++ [r])%list.
Proof.
  unfold import_row.
  destruct ((length row <? 3)%nat || String.eqb (JS.trim (nth 0 row "")) ""); [discriminate|].
  destruct (DB.first_by_hash _ (table st)) eqn:Hfirst; [discriminate|].
  cbn [table queue drawn].
  destruct (match nth_error row 3 with
            | Some text => if String.eqb text "" then Some (now env) else parse_date env text
            | None => Some (now env)
            end) as [created_at|]; [|discriminate].
  unfold DB.insert. destruct (existsb _ (table st)); [discriminate|].
  intros Heq. injection Heq as <-. cbn [table].
  split; [reflexivity|]. split; [reflexivity|]. eexists. split; [|reflexivity]. reflexivity.
Qed.

(** A row whose fingerprint is stored is skipped: nothing is inserted,
    nothing is enqueued, no identifier is drawn. *)
Lemma import_row_known (sourceName : string) (row : list string) (st : state) :
  DB.first_by_hash (hashContent env (nth 0 row "")) (table st) <> None ->
  import_row env sourceName row st = (Skipped, st).
Proof.
  intros Hknown. unfold import_row.
  destruct ((length row <? 3)%nat || String.eqb (JS.trim (nth 0 row "")) ""); [reflexivity|].
  destruct (DB.first_by_hash _ (table st)); [reflexivity | contradiction].
Qed.

(** Whatever row is imported next, a fingerprint that is stored stays
    stored as often as it was. *)
Lemma import_row_keeps (h sourceName : string) (row : list string) (st : state) :
  Table.records_with h (table st) <> 0%nat ->
  Table.records_with h (table (snd (import_row env sourceName row st)))
  = Table.records_with h (table st).
Proof.
  intros Hknown.
  destruct (import_row env sourceName row st) as [[| |] st1] eqn:Hrow; cbn [snd].
  - unfold import_row in Hrow.
    destruct ((length row <? 3)%nat || String.eqb (JS.trim (nth 0 row "")) "");
      [injection Hrow as <-; reflexivity|].
    destruct (DB.first_by_hash _ (table st)); [injection Hrow as <-; reflexivity|].
    destruct (match nth_error row 3 with
              | Some text => if String.eqb text "" then Some (now env) else parse_date env text
              | None => Some (now env)
              end); [|discriminate].
    destruct (DB.insert _ _); discriminate.
  - apply import_row_imported in Hrow as (Hfresh & _ & r & Hhash & ->).
    rewrite records_with_app. unfold Table.records_with at 2. cbn [List.filter].
    rewrite Hhash. destruct (String.eqb (hashContent env (nth 0 row "")) h) eqn:E; [|cbn; lia].
    apply String.eqb_eq in E. subst h. apply first_by_hash_none in Hfresh. contradiction.
  - unfold import_row in Hrow.
    destruct ((length row <? 3)%nat || String.eqb (JS.trim (nth 0 row "")) "");
      [discriminate|].
    destruct (DB.first_by_hash _ (table st)); [discriminate|].
    cbn [table queue drawn] in Hrow.
    destruct (match nth_error row 3 with
              | Some text => if String.eqb text "" then Some (now env) else parse_date env text
              | None => Some (now env)
              end).
    + destruct (DB.insert _ _); [discriminate|]. injection Hrow as <-. reflexivity.
    + injection Hrow as <-. reflexivity.
Qed.

Lemma import_rows_keeps (h sourceName : string) (rows : list (list string)) (n : nat) (st : state) :
  Table.records_with h (table st) <> 0%nat ->
  Table.records_with h (table (snd (import_rows env sourceName rows n st)))
  = Table.records_with h (table st).
Proof.
  revert n st. induction rows as [|row rows IH]; intros n st Hknown; [reflexivity|].
  cbn [import_rows].
  pose proof (import_row_keeps h sourceName row st Hknown) as Hrow.
  destruct (import_row env sourceName row st) as [[| |] st1]; cbn [snd] in *.
  - rewrite IH; [exact Hrow | rewrite Hrow; exact Hknown].
  - rewrite IH; [exact Hrow | rewrite Hrow; exact Hknown].
  - exact Hrow.
Qed.

Lemma import_sources_keeps (h : string) (sources : list (string * string))
    (results : list (string * nat)) (total : nat) (st : state) :
  Table.records_with h (table st) <> 0%nat ->
  Table.records_with h (table (snd (import_sources env sources results total st)))
  = Table.records_with h (table st).
Proof.
  revert results total st.
  induction sources as [|[sheetName sourceName] sources IH]; intros results total st Hknown;
    [reflexivity|].
  cbn [import_sources]. unfold import_sheet.
  destruct (fetchSheetData env sheetName) as [rows|]; [|apply IH; exact Hknown].
  pose proof (import_rows_keeps h sourceName (skipn 1 rows) 0 st Hknown) as Hrows.
  destruct (import_rows env sourceName (skipn 1 rows) 0 st) as [[thrown n] st1].
  cbn [snd] in Hrows. rewrite IH; [exact Hrows | rewrite Hrows; exact Hknown].
Qed.

(** C3.  The fingerprint of a content is a function of the content and of
    the digest alone.  Once a row has been imported, the table holds one
    record with its fingerprint; importing the same row again, from any
    sheet, finds that record and skips the row: the state (table, workflow
    queue, identifiers drawn) is unchanged; and one record with the
    fingerprint is what the table holds after any further rows and after a
    whole further [importFromSheets]; an [INSERT] of another record with the
    fingerprint is rejected by the unique index. *)
Theorem import_twice_one_record (sourceName : string) (row : list string) (st st1 : state) :
  import_row env sourceName row st = (Imported, st1) ->
  let contentHash := hashContent env (nth 0 row "") in
  (forall env', SHA256 env' = SHA256 env ->
                hashContent env' (nth 0 row "") = contentHash)
  /\ Table.records_with contentHash (table st1) = 1%nat
  /\ is_Some (DB.first_by_hash contentHash (table st1))
  /\ (forall sourceName', import_row env sourceName' row st1 = (Skipped, st1))
  /\ (forall r', Row.content_hash r' = contentHash -> DB.insert r' (table st1) = None)
  /\ (forall sourceName' rows n,
         Table.records_with contentHash
           (table (snd (import_rows env sourceName' (row :: rows) n st1))) = 1%nat)
  /\ Table.records_with contentHash (table (snd (importFromSheets env st1))) = 1%nat.
Proof.
  intros Hrow. cbv zeta.
  apply import_row_imported in Hrow as (Hfresh & _ & r & Hhash & Htable).
  assert (Hone : Table.records_with (hashContent env (nth 0 row "")) (table st1) = 1%nat).
  { rewrite Htable, records_with_app. apply first_by_hash_none in Hfresh. rewrite Hfresh.
    unfold Table.records_with. cbn [List.filter]. rewrite Hhash, String.eqb_refl. reflexivity. }
  assert (Hknown : DB.first_by_hash (hashContent env (nth 0 row "")) (table st1) <> None).
  { intros Hnone. apply first_by_hash_none in Hnone. lia. }
  split; [|split; [exact Hone|split; [|split; [|split; [|split]]]]].
  - intros env' Hsame. unfold hashContent. rewrite Hsame. reflexivity.
  - destruct (DB.first_by_hash _ (table st1)); [eexists; reflexivity | contradiction].
  - intros sourceName'. apply import_row_known. exact Hknown.
  - intros r' Hr'. unfold DB.insert.
    replace (existsb _ (table st1)) with true; [reflexivity|].
    symmetry. apply existsb_exists. exists r. split.
    + rewrite Htable. apply in_or_app. right. left. reflexivity.
    + rewrite Hhash, Hr', String.eqb_refl. apply orb_true_r.
  - intros sourceName' rows n. rewrite import_rows_keeps; [exact Hone | lia].
  - unfold importFromSheets. rewrite import_sources_keeps; [exact Hone | lia].
Qed.

End Dedup.

Lemma import_twice_one_record_witness :
  let first := Importer.import_row Sample.platform "support" Sample.sheet_row Sample.empty_import in
  fst first = Importer.Imported
  /\ Table.records_with (Importer.hashContent Sample.platform "Checkout is slow")
       (Importer.table (snd first)) = 1%nat
  /\ Importer.import_row Sample.platform "support" Sample.sheet_row (snd first)
     = (Importer.Skipped, snd first).
Proof.
  cbv zeta.
  destruct (Importer.import_row Sample.platform "support" Sample.sheet_row Sample.empty_import)
    as [o st1] eqn:Hrow.
  assert (Ho : o = Importer.Imported).
  { apply (f_equal fst) in Hrow. vm_compute in Hrow. congruence. }
  subst o. cbn [fst snd].
  pose proof (import_twice_one_record Sample.platform "support" Sample.sheet_row
                Sample.empty_import st1 Hrow) as (_ & Hone & _ & Hskip & _).
  split; [reflexivity|]. split; [exact Hone | apply Hskip].
Defined.
